(** * Conversation controller of the story page (src/client/pages/index.tsx)

    A shallow embedding of the [Index] component's state and of its two
    asynchronous handlers, [initializeStory] and [handleSubmit], followed by
    the properties of the transcript, session, character, error and busy
    stores that the specification states about them.

    Text is a [string] holding the UTF-8 bytes of the JavaScript string.
    An optional or nullable field is an [option]; [None] stands for both
    [undefined] and [null], which the code never tells apart (it only tests
    truthiness). *)

From Stdlib Require Import String Ascii List NArith ZArith Bool Lia DecimalString.
From Stdlib Require Import Floats.SpecFloat.
Import ListNotations.
Open Scope string_scope.

(* ================================================================== *)
(** ** JavaScript text primitives used by the component *)

Module Js.

(** Truthiness of a string: every string but the empty one. *)
Definition truthy (s : string) : bool :=
  match s with
  | EmptyString => false
  | String _ _ => true
  end.

(** Truthiness of an optional string field ([undefined], [null] and the
    empty string are falsy). *)
Definition truthy_field (f : option string) : bool :=
  match f with
  | Some s => truthy s
  | None => false
  end.

(** Truthiness of an optional object field: objects are always truthy. *)
Definition truthy_object {A : Type} (f : option A) : bool :=
  match f with
  | Some _ => true
  | None => false
  end.

Definition bytes (l : list nat) : list ascii := map ascii_of_nat l.

(** The code points [String.prototype.trim] removes (ECMAScript WhiteSpace
    and LineTerminator), each as its UTF-8 byte sequence. *)
Definition white_space : list (list ascii) :=
  map bytes
    [ [9]; [10]; [11]; [12]; [13]; [32];            (* TAB LF VT FF CR SP *)
      [194; 160];                                    (* U+00A0 *)
      [225; 154; 128];                               (* U+1680 *)
      [226; 128; 128]; [226; 128; 129]; [226; 128; 130]; [226; 128; 131];
      [226; 128; 132]; [226; 128; 133]; [226; 128; 134]; [226; 128; 135];
      [226; 128; 136]; [226; 128; 137]; [226; 128; 138]; (* U+2000..U+200A *)
      [226; 128; 168]; [226; 128; 169];              (* U+2028 U+2029 *)
      [226; 128; 175];                               (* U+202F *)
      [226; 129; 159];                               (* U+205F *)
      [227; 128; 128];                               (* U+3000 *)
      [239; 187; 191] ].                             (* U+FEFF *)

(** [strip_prefix p l] is the rest of [l] after its prefix [p], if any. *)
Fixpoint strip_prefix (p l : list ascii) : option (list ascii) :=
  match p, l with
  | [], _ => Some l
  | _ :: _, [] => None
  | a :: p', b :: l' => if Ascii.eqb a b then strip_prefix p' l' else None
  end.

(** The rest of [l] after one leading sequence of [table], if it has one. *)
Fixpoint strip_one (table : list (list ascii)) (l : list ascii)
  : option (list ascii) :=
  match table with
  | [] => None
  | p :: table' =>
      match strip_prefix p l with
      | Some rest => Some rest
      | None => strip_one table' l
      end
  end.

(** Removes leading sequences of [table]; every round removes at least one
    byte, so [length l] rounds are enough. *)
Fixpoint strip (fuel : nat) (table : list (list ascii)) (l : list ascii)
  : list ascii :=
  match fuel with
  | O => l
  | S fuel' =>
      match strip_one table l with
      | Some rest => strip fuel' table rest
      | None => l
      end
  end.

Definition trimStart (l : list ascii) : list ascii :=
  strip (length l) white_space l.

Definition trimEnd (l : list ascii) : list ascii :=
  rev (strip (length l) (map (@rev ascii) white_space) (rev l)).

(** [s.trim()] *)
Definition trim (s : string) : string :=
  string_of_list_ascii (trimEnd (trimStart (list_ascii_of_string s))).

(** [`${n}`] for a non-negative integer [n]: its decimal digits. *)
Definition number_to_string (n : N) : string :=
  NilEmpty.string_of_uint (N.to_uint n).

End Js.

(* ================================================================== *)
(** ** Data model *)

Inductive Role := user | assistant.

(** [interface StoryMessage] *)
Record StoryMessage := mkMessage {
  role : Role;
  content : string
}.

(** [interface Character]; [relationships] keeps the object's entries in key
    order, [story_progress] is a JavaScript number (an IEEE 754 binary64
    value). *)
Record Character := mkCharacter {
  name : option string;
  class : option string;
  goals : list string;
  inventory : list string;
  relationships : list (string * string);
  story_progress : spec_float;
  current_location : option string;
  active_quests : list string;
  completed_quests : list string
}.

(** The six [useState] cells of the component. *)
Record State := mkState {
  messages : list StoryMessage;
  inputText : string;
  isLoading : bool;
  error : option string;
  sessionId : option string;
  character : option Character
}.

(** The initial values given to [useState]. *)
Definition initial_state : State :=
  {| messages := [];
     inputText := "";
     isLoading := false;
     error := None;
     sessionId := None;
     character := None |}.

(* ================================================================== *)
(** ** The backend exchange *)

(** The JSON body handed to [fetch]. *)
Record Request := mkRequest {
  prompt : string;
  session_id : option string
}.

(** What a [catch] clause can receive: an [Error] with its message, or any
    other thrown value. *)
Inductive Thrown :=
| ErrorObject (message : string)
| OtherValue.

(** The parsed response body, typed as the code reads it. *)
Record ResponseData := mkData {
  generated_text : option string;
  data_session_id : option string;
  data_character : option Character
}.

(** [await response.json()] either rejects (the body is not JSON, or the
    property access on a [null] body throws) or yields the data. *)
Inductive JsonOutcome :=
| JsonRejects (e : Thrown)
| JsonResolves (data : ResponseData).

Record Response := mkResponse {
  status : N;
  json : JsonOutcome
}.

(** [response.ok]: the status is in the range 200-299. *)
Definition ok (r : Response) : bool :=
  ((200 <=? status r) && (status r <=? 299))%N.

(** [await fetch(...)] either rejects (the backend cannot be reached) or
    resolves to a response, whatever its status. *)
Inductive FetchOutcome :=
| FetchRejects (e : Thrown)
| FetchResolves (r : Response).

(* ================================================================== *)
(** ** State setters *)

Definition setMessages (f : list StoryMessage -> list StoryMessage)
  (s : State) : State :=
  {| messages := f (messages s); inputText := inputText s;
     isLoading := isLoading s; error := error s;
     sessionId := sessionId s; character := character s |}.

Definition setInputText (v : string) (s : State) : State :=
  {| messages := messages s; inputText := v;
     isLoading := isLoading s; error := error s;
     sessionId := sessionId s; character := character s |}.

Definition setIsLoading (b : bool) (s : State) : State :=
  {| messages := messages s; inputText := inputText s;
     isLoading := b; error := error s;
     sessionId := sessionId s; character := character s |}.

Definition setError (e : option string) (s : State) : State :=
  {| messages := messages s; inputText := inputText s;
     isLoading := isLoading s; error := e;
     sessionId := sessionId s; character := character s |}.

Definition setSessionId (v : option string) (s : State) : State :=
  {| messages := messages s; inputText := inputText s;
     isLoading := isLoading s; error := error s;
     sessionId := v; character := character s |}.

Definition setCharacter (c : option Character) (s : State) : State :=
  {| messages := messages s; inputText := inputText s;
     isLoading := isLoading s; error := error s;
     sessionId := sessionId s; character := c |}.

(* ================================================================== *)
(** ** Handler bodies: state updates that may throw

    The part of an [async] handler that runs after its [await] is a
    computation over the component state that either completes or throws;
    updates made before a [throw] stay. *)

Module Handler.

Inductive Completion (A : Type) :=
| Normal (a : A)
| Throws (e : Thrown).
Arguments Normal {A} a.
Arguments Throws {A} e.

Definition t (A : Type) : Type := State -> State * Completion A.

Definition ret {A} (a : A) : t A := fun s => (s, Normal a).

Definition bind {A B} (m : t A) (k : A -> t B) : t B :=
  fun s =>
    match m s with
    | (s1, Normal a) => k a s1
    | (s1, Throws e) => (s1, Throws e)
    end.

Definition throw {A} (e : Thrown) : t A := fun s => (s, Throws e).

(** A [set...] call. *)
Definition update (f : State -> State) : t unit := fun s => (f s, Normal tt).

(** [if (c) { m }] *)
Definition when (c : bool) (m : t unit) : t unit :=
  if c then m else ret tt.

(** [try { body } catch (err) { handler } finally { fin }] *)
Definition try_catch_finally {A} (body : t A) (handler : Thrown -> t A)
  (fin : t unit) : t A :=
  fun s =>
    let '(s1, r1) :=
      match body s with
      | (s1, Normal a) => (s1, Normal a)
      | (s1, Throws e) => handler e s1
      end in
    match fin s1 with
    | (s2, Normal _) => (s2, r1)
    | (s2, Throws e) => (s2, Throws e)
    end.

(** The state a handler body leaves behind. *)
Definition exec {A} (m : t A) (s : State) : State := fst (m s).

End Handler.

Notation "x <- m ;; k" := (Handler.bind m (fun x => k))
  (at level 61, m at next level, right associativity).
Notation "m ;; k" := (Handler.bind m (fun _ => k))
  (at level 61, right associativity).

(** [await fetch(...)], given how the request ends. *)
Definition await_fetch (o : FetchOutcome) : Handler.t Response :=
  match o with
  | FetchRejects e => Handler.throw e
  | FetchResolves r => Handler.ret r
  end.

(** [await response.json()] *)
Definition await_json (r : Response) : Handler.t ResponseData :=
  match json r with
  | JsonRejects e => Handler.throw e
  | JsonResolves d => Handler.ret d
  end.

(** [err instanceof Error ? err.message : fallback] *)
Definition error_text (err : Thrown) (fallback : string) : string :=
  match err with
  | ErrorObject m => m
  | OtherValue => fallback
  end.

Definition http_error (r : Response) : Thrown :=
  ErrorObject ("HTTP error! status: " ++ Js.number_to_string (status r)).

Definition no_generated_text : Thrown :=
  ErrorObject "No generated text in response".

Definition apology : string :=
  "I apologize, but I encountered an error. Please try again.".

(* ================================================================== *)
(** ** [initializeStory] *)

(** Up to the first [await]: the two setters and the request handed to
    [fetch], whose [session_id] is the [sessionId] of the calling render. *)
Definition initializeStory_call (s : State) : State * Request :=
  (setError None (setIsLoading true s),
   {| prompt := "I want to start a new adventure story.";
      session_id := sessionId s |}).

(** From the first [await] on: the rest of the [try] block, [catch] and
    [finally]. *)
Definition initializeStory_settle (o : FetchOutcome) : Handler.t unit :=
  Handler.try_catch_finally
    (response <- await_fetch o ;;
     if negb (ok response) then Handler.throw (http_error response)
     else
       data <- await_json response ;;
       if Js.truthy_field (generated_text data) then
         match generated_text data with
         | Some text =>
             Handler.update
               (setMessages (fun _ => [ {| role := assistant; content := text |} ])) ;;
             Handler.when (Js.truthy_field (data_session_id data))
               (Handler.update (setSessionId (data_session_id data))) ;;
             Handler.when (Js.truthy_object (data_character data))
               (Handler.update (setCharacter (data_character data)))
         | None => Handler.ret tt   (* not reached: the field is truthy *)
         end
       else Handler.throw no_generated_text)
    (fun err =>
       Handler.update (setError (Some (error_text err "Failed to start story"))))
    (Handler.update (setIsLoading false)).

(** One whole run of [initializeStory]: the final state and the requests
    sent. *)
Definition initializeStory (o : FetchOutcome) (s : State)
  : State * list Request :=
  let '(s1, req) := initializeStory_call s in
  (Handler.exec (initializeStory_settle o) s1, [req]).

(** The mount effect: [initializeStory] on the initial render. *)
Definition mount (o : FetchOutcome) : State * list Request :=
  initializeStory o initial_state.

(* ================================================================== *)
(** ** [handleSubmit] *)

(** Up to the first [await]: [None] is the early [return]; otherwise the
    setters, among them the user turn, and the request handed to [fetch]. *)
Definition handleSubmit_call (s : State) : option (State * Request) :=
  if negb (Js.truthy (Js.trim (inputText s))) || isLoading s then None
  else
    let userMessage := inputText s in
    Some (setMessages
            (fun prev => (prev ++ [ {| role := user; content := userMessage |} ])%list)
            (setInputText "" (setError None (setIsLoading true s))),
          {| prompt := userMessage; session_id := sessionId s |}).

Definition handleSubmit_settle (o : FetchOutcome) : Handler.t unit :=
  Handler.try_catch_finally
    (response <- await_fetch o ;;
     if negb (ok response) then Handler.throw (http_error response)
     else
       data <- await_json response ;;
       if Js.truthy_field (generated_text data) then
         match generated_text data with
         | Some text =>
             Handler.update
               (setMessages
                  (fun prev => (prev ++ [ {| role := assistant; content := text |} ])%list)) ;;
             Handler.when (Js.truthy_object (data_character data))
               (Handler.update (setCharacter (data_character data)))
         | None => Handler.ret tt   (* not reached: the field is truthy *)
         end
       else Handler.throw no_generated_text)
    (fun err =>
       Handler.update (setError (Some (error_text err "Failed to send message"))) ;;
       Handler.update
         (setMessages
            (fun prev => (prev ++ [ {| role := assistant; content := apology |} ])%list)))
    (Handler.update (setIsLoading false)).

Definition handleSubmit (o : FetchOutcome) (s : State)
  : State * list Request :=
  match handleSubmit_call s with
  | None => (s, [])
  | Some (s1, req) => (Handler.exec (handleSubmit_settle o) s1, [req])
  end.

(* ================================================================== *)
(** ** The view's controls and the user's actions *)

(** [onChange] of the text input. *)
Definition onChange (v : string) (s : State) : State := setInputText v s.

(** [disabled] of the text input and of the Send button. *)
Definition input_disabled (s : State) : bool := isLoading s.

Definition send_disabled (s : State) : bool :=
  isLoading s || negb (Js.truthy (Js.trim (inputText s))).

(** The specification's [submit(userText)]: the user types [userText] and
    sends the form, and the request ends with [o]. *)
Definition submit (userText : string) (o : FetchOutcome) (s : State)
  : State * list Request :=
  handleSubmit o (onChange userText s).

(** A sequence of [submit] calls, each run to completion before the next;
    the requests are collected in the order they are sent. *)
Fixpoint run (calls : list (string * FetchOutcome)) (s : State)
  : State * list Request :=
  match calls with
  | [] => (s, [])
  | (userText, o) :: rest =>
      let '(s1, sent1) := submit userText o s in
      let '(s2, sent2) := run rest s1 in
      (s2, (sent1 ++ sent2)%list)
  end.

(** What the user can do while a request is in flight: type, or send the
    form.  A send that passes the guard starts a request. *)
Inductive UiEvent :=
| Typed (v : string)
| Sent.

Definition ui_step (e : UiEvent) (s : State) : State * list Request :=
  match e with
  | Typed v => (onChange v s, [])
  | Sent =>
      match handleSubmit_call s with
      | None => (s, [])
      | Some (s1, req) => (s1, [req])
      end
  end.

Fixpoint ui_run (evs : list UiEvent) (s : State) : State * list Request :=
  match evs with
  | [] => (s, [])
  | e :: rest =>
      let '(s1, sent1) := ui_step e s in
      let '(s2, sent2) := ui_run rest s1 in
      (s2, (sent1 ++ sent2)%list)
  end.

(* ================================================================== *)
(** ** What the component renders

    The parts of the returned JSX that depend on the state: the error
    banner, one bubble per turn, the "Thinking..." line, the two form
    controls and the character sheet.  Markup and class names that are the
    same in every render are left out, and so is the list [key] of a bubble
    or chip, which is its position. *)

Module View.

(** [f || fallback] for a string field [f]. *)
Definition or_else (f : option string) (fallback : string) : string :=
  match f with
  | Some s => if Js.truthy s then s else fallback
  | None => fallback
  end.

(** A turn of the transcript: the class of its row, the class of its
    bubble, and its text. *)
Record Bubble := mkBubble {
  row_class : string;
  bubble_class : string;
  bubble_text : string
}.

Definition bubble (message : StoryMessage) : Bubble :=
  {| row_class :=
       "flex " ++ match role message with
                  | user => "justify-end"
                  | assistant => "justify-start"
                  end;
     bubble_class :=
       "max-w-[80%] rounded-lg p-4 "
       ++ match role message with
          | user => "bg-blue-600 ml-4"
          | assistant => "bg-gray-700 mr-4"
          end;
     bubble_text := content message |}.

(** The character sheet: four labels and chips, in the order rendered. *)
Record Sheet := mkSheet {
  sheet_name : string;
  sheet_class : string;
  sheet_goals : list string;
  sheet_inventory : list string;
  sheet_location : string;
  sheet_active_quests : list string
}.

Definition sheet (c : Character) : Sheet :=
  {| sheet_name := or_else (name c) "Not set";
     sheet_class := or_else (class c) "Not set";
     sheet_goals := map (fun goal => goal) (goals c);
     sheet_inventory := map (fun item => item) (inventory c);
     sheet_location := or_else (current_location c) "Unknown";
     sheet_active_quests := map (fun quest => quest) (active_quests c) |}.

Record Page := mkPage {
  banner : option string;
  bubbles : list Bubble;
  thinking : bool;
  input_value : string;
  input_off : bool;
  send_off : bool;
  character_sheet : option Sheet
}.

Definition render (s : State) : Page :=
  {| banner :=
       match error s with
       | Some e => if Js.truthy e then Some ("Error: " ++ e) else None
       | None => None
       end;
     bubbles := map bubble (messages s);
     thinking := isLoading s;
     input_value := inputText s;
     input_off := input_disabled s;
     send_off := send_disabled s;
     character_sheet :=
       match character s with
       | Some c => Some (sheet c)
       | None => None
       end |}.

End View.

(* ================================================================== *)
(** ** Shapes of transcripts and inputs *)

(** The turns come in pairs, a user turn then an assistant turn. *)
Fixpoint paired (turns : list StoryMessage) : bool :=
  match turns with
  | [] => true
  | first :: rest =>
      match rest with
      | [] => false
      | second :: rest' =>
          match role first, role second with
          | user, assistant => paired rest'
          | _, _ => false
          end
      end
  end.

(** The one-byte white space: TAB, LF, VT, FF, CR and the space. *)
Definition ascii_white_space : list ascii := Js.bytes [9; 10; 11; 12; 13; 32].

(** The one-byte white space that the value of the text input can hold:
    TAB, VT, FF and the space.  An [input] of type [text] strips LF and CR
    from its value, so [onChange] never reads them. *)
Definition input_white_space : list ascii := Js.bytes [9; 11; 12; 32].

(** A visible ASCII character, ["!"] to ["~"]. *)
Definition visible_ascii (b : ascii) : bool :=
  ((33 <=? nat_of_ascii b) && (nat_of_ascii b <=? 126))%nat.

(* ================================================================== *)
(** ** How a request can end *)

(** The request is a success: a 2xx response whose body parses and carries
    a non-empty [generated_text]. *)
Inductive accepted : FetchOutcome -> ResponseData -> string -> Prop :=
| accepted_intro r d text :
    ok r = true ->
    json r = JsonResolves d ->
    generated_text d = Some text ->
    Js.truthy text = true ->
    accepted (FetchResolves r) d text.

(** The request is a failure, and [e] is what the [catch] clause receives. *)
Inductive failure : FetchOutcome -> Thrown -> Prop :=
| network_failure e :
    failure (FetchRejects e) e
| http_failure r :
    ok r = false ->
    failure (FetchResolves r) (http_error r)
| body_failure r e :
    ok r = true ->
    json r = JsonRejects e ->
    failure (FetchResolves r) e
| missing_text r d :
    ok r = true ->
    json r = JsonResolves d ->
    Js.truthy_field (generated_text d) = false ->
    failure (FetchResolves r) no_generated_text.

(** A [submit] call that passes the guard and whose request succeeds,
    with the two turns it stands for. *)
Inductive successful_call : string * FetchOutcome -> list StoryMessage -> Prop :=
| successful_call_intro userText o d text :
    Js.truthy (Js.trim userText) = true ->
    accepted o d text ->
    successful_call (userText, o)
      [ {| role := user; content := userText |};
        {| role := assistant; content := text |} ].

(* ================================================================== *)
(** ** Sample exchanges (the specification's scenarios) *)

Module Sample.

Definition reply (text : string) (sid : option string)
  (c : option Character) : FetchOutcome :=
  FetchResolves
    {| status := 200;
       json := JsonResolves
                 {| generated_text := Some text;
                    data_session_id := sid;
                    data_character := c |} |}.

Definition http_500 : FetchOutcome :=
  FetchResolves {| status := 500; json := JsonRejects OtherValue |}.

(** The number [1]: 2^52 * 2^-52. *)
Definition one : spec_float := S754_finite false 4503599627370496 (-52).

Definition rin : Character :=
  {| name := Some "Rin"; class := Some "Rogue"; goals := [];
     inventory := []; relationships := []; story_progress := one;
     current_location := Some "Forest"; active_quests := [];
     completed_quests := [] |}.

Definition bob (gs : list string) : Character :=
  {| name := Some "Bob"; class := None; goals := gs;
     inventory := []; relationships := []; story_progress := S754_zero false;
     current_location := None; active_quests := [];
     completed_quests := [] |}.

(** A 2xx body that has a character but no [generated_text]. *)
Definition character_only (c : Character) : FetchOutcome :=
  FetchResolves
    {| status := 200;
       json := JsonResolves
                 {| generated_text := None;
                    data_session_id := None;
                    data_character := Some c |} |}.

(** Scenario A: the state after the bootstrap. *)
Definition scenario_A : State :=
  fst (mount (reply "You wake in a forest." (Some "s1") None)).

(** A later state whose character has a goal. *)
Definition bob_state : State :=
  fst (submit "who am I?"
         (reply "You are Bob." None (Some (bob ["find sword"])))
         scenario_A).

(** A bootstrap response whose [session_id] is the empty string. *)
Definition empty_session_data : ResponseData :=
  {| generated_text := Some "You wake in a forest.";
     data_session_id := Some "";
     data_character := None |}.

Definition empty_session_reply : FetchOutcome :=
  FetchResolves {| status := 200; json := JsonResolves empty_session_data |}.

End Sample.

(* ================================================================== *)
(** ** Scenarios of the specification, by evaluation *)

Example scenario_A_state :
  mount (Sample.reply "You wake in a forest." (Some "s1") None)
  = ({| messages := [ {| role := assistant; content := "You wake in a forest." |} ];
        inputText := ""; isLoading := false; error := None;
        sessionId := Some "s1"; character := None |},
     [ {| prompt := "I want to start a new adventure story.";
          session_id := None |} ]).
Proof. reflexivity. Qed.

Example scenario_B_state :
  submit "look around" (Sample.reply "You see a path." None (Some Sample.rin))
    Sample.scenario_A
  = ({| messages := [ {| role := assistant; content := "You wake in a forest." |};
                      {| role := user; content := "look around" |};
                      {| role := assistant; content := "You see a path." |} ];
        inputText := ""; isLoading := false; error := None;
        sessionId := Some "s1"; character := Some Sample.rin |},
     [ {| prompt := "look around"; session_id := Some "s1" |} ]).
Proof. reflexivity. Qed.

Example scenario_C_state :
  submit "   " (Sample.reply "unused" None None) Sample.scenario_A
  = (onChange "   " Sample.scenario_A, []).
Proof. reflexivity. Qed.

Example scenario_D_state :
  submit "fight" Sample.http_500 Sample.scenario_A
  = ({| messages := [ {| role := assistant; content := "You wake in a forest." |};
                      {| role := user; content := "fight" |};
                      {| role := assistant; content := apology |} ];
        inputText := ""; isLoading := false;
        error := Some "HTTP error! status: 500";
        sessionId := Some "s1"; character := None |},
     [ {| prompt := "fight"; session_id := Some "s1" |} ]).
Proof. reflexivity. Qed.

(* ================================================================== *)
(** ** The two ways a handler settles *)

Ltac unfold_handler :=
  cbv beta iota delta
    [Handler.exec Handler.try_catch_finally Handler.bind Handler.when
     Handler.update Handler.throw Handler.ret await_fetch await_json].

(** Every outcome is a success or a failure. *)
Lemma accepted_or_failure (o : FetchOutcome) :
  (exists d text, accepted o d text) \/ (exists e, failure o e).
Proof.
  destruct o as [e | r].
  - right. exists e. constructor.
  - destruct (ok r) eqn:Hok.
    + destruct (json r) as [e | d] eqn:Hjson.
      * right. exists e. now apply body_failure.
      * destruct (Js.truthy_field (generated_text d)) eqn:Htext.
        -- left. destruct (generated_text d) as [text |] eqn:Hgen;
             [| discriminate].
           exists d, text. now constructor.
        -- right. exists no_generated_text. now apply missing_text with d.
    + right. exists (http_error r). now constructor.
Qed.

(** No outcome is both. *)
Lemma accepted_not_failure (o : FetchOutcome) d text e :
  accepted o d text -> failure o e -> False.
Proof.
  intros Ha Hf. destruct Ha as [r d text Hok Hjson Hgen Htruthy].
  inversion Hf; subst; try congruence.
  assert (d0 = d) by congruence. subst d0.
  rewrite Hgen in *. cbn in *. congruence.
Qed.

Lemma handleSubmit_settle_accepted (o : FetchOutcome) d text (s : State) :
  accepted o d text ->
  Handler.exec (handleSubmit_settle o) s
  = {| messages := messages s ++ [ {| role := assistant; content := text |} ];
       inputText := inputText s;
       isLoading := false;
       error := error s;
       sessionId := sessionId s;
       character := match data_character d with
                    | Some c => Some c
                    | None => character s
                    end |}.
Proof.
  intros [r d' text' Hok Hjson Hgen Htruthy].
  unfold handleSubmit_settle. unfold_handler.
  rewrite Hok, Hjson. cbn. rewrite Hgen. cbn. rewrite Htruthy.
  now destruct (data_character d').
Qed.

Lemma handleSubmit_settle_failure (o : FetchOutcome) (e : Thrown) (s : State) :
  failure o e ->
  Handler.exec (handleSubmit_settle o) s
  = {| messages := messages s ++ [ {| role := assistant; content := apology |} ];
       inputText := inputText s;
       isLoading := false;
       error := Some (error_text e "Failed to send message");
       sessionId := sessionId s;
       character := character s |}.
Proof.
  intros Hf. unfold handleSubmit_settle. unfold_handler.
  destruct Hf as [e | r Hok | r e Hok Hjson | r d Hok Hjson Htext].
  - reflexivity.
  - now rewrite Hok.
  - now rewrite Hok, Hjson.
  - rewrite Hok, Hjson. cbn. now rewrite Htext.
Qed.

Lemma initializeStory_settle_accepted (o : FetchOutcome) d text (s : State) :
  accepted o d text ->
  Handler.exec (initializeStory_settle o) s
  = {| messages := [ {| role := assistant; content := text |} ];
       inputText := inputText s;
       isLoading := false;
       error := error s;
       sessionId := if Js.truthy_field (data_session_id d)
                    then data_session_id d else sessionId s;
       character := match data_character d with
                    | Some c => Some c
                    | None => character s
                    end |}.
Proof.
  intros [r d' text' Hok Hjson Hgen Htruthy].
  unfold initializeStory_settle. unfold_handler.
  rewrite Hok, Hjson. cbn. rewrite Hgen. cbn. rewrite Htruthy.
  now destruct (Js.truthy_field (data_session_id d')), (data_character d').
Qed.

Lemma initializeStory_settle_failure (o : FetchOutcome) (e : Thrown) (s : State) :
  failure o e ->
  Handler.exec (initializeStory_settle o) s
  = {| messages := messages s;
       inputText := inputText s;
       isLoading := false;
       error := Some (error_text e "Failed to start story");
       sessionId := sessionId s;
       character := character s |}.
Proof.
  intros Hf. unfold initializeStory_settle. unfold_handler.
  destruct Hf as [e | r Hok | r e Hok Hjson | r d Hok Hjson Htext].
  - reflexivity.
  - now rewrite Hok.
  - now rewrite Hok, Hjson.
  - rewrite Hok, Hjson. cbn. now rewrite Htext.
Qed.

(** The guard of [handleSubmit]. *)
Lemma handleSubmit_call_closed (s : State) :
  Js.trim (inputText s) = "" \/ isLoading s = true ->
  handleSubmit_call s = None.
Proof.
  unfold handleSubmit_call. intros [Hblank | Hbusy].
  - now rewrite Hblank.
  - rewrite Hbusy. now rewrite orb_true_r.
Qed.

Lemma handleSubmit_call_open (s : State) :
  Js.truthy (Js.trim (inputText s)) = true ->
  isLoading s = false ->
  handleSubmit_call s
  = Some ({| messages := messages s
                         ++ [ {| role := user; content := inputText s |} ];
             inputText := "";
             isLoading := true;
             error := None;
             sessionId := sessionId s;
             character := character s |},
          {| prompt := inputText s; session_id := sessionId s |}).
Proof.
  unfold handleSubmit_call. intros Htext Hidle.
  now rewrite Htext, Hidle.
Qed.

(** Whatever the outcome, a handler settles with the busy flag cleared. *)
Lemma handleSubmit_settle_idle (o : FetchOutcome) (s : State) :
  isLoading (Handler.exec (handleSubmit_settle o) s) = false.
Proof.
  destruct (accepted_or_failure o) as [(d & text & Ha) | (e & Hf)].
  - now rewrite (handleSubmit_settle_accepted o d text s Ha).
  - now rewrite (handleSubmit_settle_failure o e s Hf).
Qed.

Lemma handleSubmit_idle (o : FetchOutcome) (s : State) :
  isLoading s = false -> isLoading (fst (handleSubmit o s)) = false.
Proof.
  intros Hidle. unfold handleSubmit.
  destruct (handleSubmit_call s) as [[s1 req] |]; cbn.
  - apply handleSubmit_settle_idle.
  - exact Hidle.
Qed.

Lemma mount_idle (o : FetchOutcome) : isLoading (fst (mount o)) = false.
Proof.
  unfold mount, initializeStory. cbn.
  destruct (accepted_or_failure o) as [(d & text & Ha) | (e & Hf)].
  - now rewrite (initializeStory_settle_accepted o d text _ Ha).
  - now rewrite (initializeStory_settle_failure o e _ Hf).
Qed.

(* ================================================================== *)
(** ** One [submit] call *)

Lemma submit_accepted (userText : string) (o : FetchOutcome) d text (s : State) :
  Js.truthy (Js.trim userText) = true ->
  isLoading s = false ->
  accepted o d text ->
  submit userText o s
  = ({| messages := messages s
                    ++ [ {| role := user; content := userText |};
                         {| role := assistant; content := text |} ];
        inputText := "";
        isLoading := false;
        error := None;
        sessionId := sessionId s;
        character := match data_character d with
                     | Some c => Some c
                     | None => character s
                     end |},
     [ {| prompt := userText; session_id := sessionId s |} ]).
Proof.
  intros Htext Hidle Ha. unfold submit, handleSubmit.
  rewrite handleSubmit_call_open by assumption.
  rewrite (handleSubmit_settle_accepted o d text _ Ha). cbn.
  now rewrite <- app_assoc.
Qed.

Lemma submit_failure (userText : string) (o : FetchOutcome) e (s : State) :
  Js.truthy (Js.trim userText) = true ->
  isLoading s = false ->
  failure o e ->
  submit userText o s
  = ({| messages := messages s
                    ++ [ {| role := user; content := userText |};
                         {| role := assistant; content := apology |} ];
        inputText := "";
        isLoading := false;
        error := Some (error_text e "Failed to send message");
        sessionId := sessionId s;
        character := character s |},
     [ {| prompt := userText; session_id := sessionId s |} ]).
Proof.
  intros Htext Hidle Hf. unfold submit, handleSubmit.
  rewrite handleSubmit_call_open by assumption.
  rewrite (handleSubmit_settle_failure o e _ Hf). cbn.
  now rewrite <- app_assoc.
Qed.

(** A [submit] whose guard is closed: only the typed text is stored. *)
Lemma submit_closed (userText : string) (o : FetchOutcome) (s : State) :
  Js.trim userText = "" \/ isLoading s = true ->
  submit userText o s = (onChange userText s, []).
Proof.
  intros Hguard. unfold submit, handleSubmit.
  now rewrite handleSubmit_call_closed.
Qed.

(** The guard is either open or closed. *)
Lemma guard_cases (userText : string) (s : State) :
  (Js.truthy (Js.trim userText) = true /\ isLoading s = false)
  \/ (Js.trim userText = "" \/ isLoading s = true).
Proof.
  destruct (isLoading s); [right; now right |].
  destruct (Js.trim userText); [right; now left | left; now split].
Qed.

(** [submit] never writes the session store, and what it sends carries the
    stored token. *)
Lemma submit_session (userText : string) (o : FetchOutcome) (s : State) :
  sessionId (fst (submit userText o s)) = sessionId s
  /\ Forall (fun req => session_id req = sessionId s)
       (snd (submit userText o s)).
Proof.
  destruct (guard_cases userText s) as [[Htext Hidle] | Hclosed].
  - destruct (accepted_or_failure o) as [(d & text & Ha) | (e & Hf)].
    + rewrite (submit_accepted userText o d text s Htext Hidle Ha). cbn.
      split; [reflexivity | now repeat constructor].
    + rewrite (submit_failure userText o e s Htext Hidle Hf). cbn.
      split; [reflexivity | now repeat constructor].
  - rewrite (submit_closed userText o s Hclosed). cbn.
    split; [reflexivity | constructor].
Qed.

Lemma submit_idle (userText : string) (o : FetchOutcome) (s : State) :
  isLoading s = false -> isLoading (fst (submit userText o s)) = false.
Proof. intros Hidle. unfold submit. now apply handleSubmit_idle. Qed.

(* ================================================================== *)
(** ** Sequences of [submit] calls *)

Lemma run_cons (userText : string) (o : FetchOutcome) rest (s : State) :
  run ((userText, o) :: rest) s
  = (fst (run rest (fst (submit userText o s))),
     snd (submit userText o s) ++ snd (run rest (fst (submit userText o s))))%list.
Proof.
  cbn [run]. destruct (submit userText o s) as [s1 sent1].
  cbn [fst snd]. now destruct (run rest s1).
Qed.

Lemma run_successful calls turns :
  Forall2 successful_call calls turns ->
  forall s, isLoading s = false ->
  messages (fst (run calls s)) = (messages s ++ concat turns)%list.
Proof.
  induction 1 as [| call turn calls turns Hcall _ IH]; intros s Hidle.
  - cbn. now rewrite app_nil_r.
  - destruct Hcall as [userText o d text Htext Ha].
    rewrite run_cons. cbn [fst].
    rewrite IH by now apply submit_idle.
    rewrite (submit_accepted userText o d text s Htext Hidle Ha).
    cbn [fst messages concat]. now rewrite <- app_assoc.
Qed.

Lemma successful_turns_length calls turns :
  Forall2 successful_call calls turns ->
  length (concat turns) = 2 * length calls.
Proof.
  induction 1 as [| call turn calls turns Hcall _ IH]; [reflexivity |].
  destruct Hcall. cbn [concat length app]. rewrite IH. cbn. lia.
Qed.

Lemma run_session calls :
  forall s,
    sessionId (fst (run calls s)) = sessionId s
    /\ Forall (fun req => session_id req = sessionId s) (snd (run calls s)).
Proof.
  induction calls as [| [userText o] rest IH]; intros s.
  - cbn. split; [reflexivity | constructor].
  - rewrite run_cons. cbn [fst snd].
    destruct (submit_session userText o s) as [Hsid Hsent].
    destruct (IH (fst (submit userText o s))) as [Hsid' Hsent'].
    rewrite Hsid in Hsid', Hsent'.
    split; [exact Hsid' |].
    apply Forall_app. now split.
Qed.

(** While the busy flag is set, typing and sending start no request and
    leave every store but the typed text alone. *)
Lemma ui_run_busy evs :
  forall s, isLoading s = true ->
    snd (ui_run evs s) = []
    /\ isLoading (fst (ui_run evs s)) = true
    /\ messages (fst (ui_run evs s)) = messages s
    /\ error (fst (ui_run evs s)) = error s
    /\ sessionId (fst (ui_run evs s)) = sessionId s
    /\ character (fst (ui_run evs s)) = character s.
Proof.
  induction evs as [| e rest IH]; intros s Hbusy.
  - cbn. now repeat split.
  - cbn [ui_run]. destruct e as [v |]; cbn [ui_step].
    + specialize (IH (onChange v s) Hbusy).
      destruct (ui_run rest (onChange v s)) as [s2 sent2]. exact IH.
    + rewrite handleSubmit_call_closed by now right.
      specialize (IH s Hbusy).
      destruct (ui_run rest s) as [s2 sent2]. exact IH.
Qed.

(* ================================================================== *)
(** ** Properties of the specification *)

(** C1 (P1, monotonic transcript).  After a successful bootstrap, a
    sequence of N [submit] calls that all succeed leaves the bootstrap
    transcript followed, call by call, by one user turn holding the
    submitted text and one assistant turn holding the returned
    [generated_text]; its length is the bootstrap length plus 2N.  The
    earlier turns are a prefix of the result, so none was changed or
    removed. *)
Theorem transcript_after_successful_submits :
  forall o0 d0 text0 calls turns,
    accepted o0 d0 text0 ->
    Forall2 successful_call calls turns ->
    let s0 := fst (mount o0) in
    let sN := fst (run calls s0) in
    messages s0 = [ {| role := assistant; content := text0 |} ]
    /\ messages sN = (messages s0 ++ concat turns)%list
    /\ length (messages sN) = length (messages s0) + 2 * length calls.
Proof.
  intros o0 d0 text0 calls turns Hboot Hcalls s0 sN. subst s0 sN.
  pose proof (run_successful calls turns Hcalls _ (mount_idle o0)) as Hrun.
  split; [| split; [exact Hrun |]].
  - unfold mount, initializeStory. cbn [initializeStory_call fst].
    now rewrite (initializeStory_settle_accepted o0 d0 text0 _ Hboot).
  - rewrite Hrun, length_app.
    now rewrite (successful_turns_length calls turns Hcalls).
Qed.

Lemma transcript_after_successful_submits_witness :
  let o0 := Sample.reply "You wake in a forest." (Some "s1") None in
  let calls :=
    [ ("look around", Sample.reply "You see a path." None (Some Sample.rin));
      ("follow it", Sample.reply "It leads to a river." (Some "s2") None) ] in
  messages (fst (mount o0))
  = [ {| role := assistant; content := "You wake in a forest." |} ]
  /\ messages (fst (run calls (fst (mount o0))))
  = [ {| role := assistant; content := "You wake in a forest." |};
      {| role := user; content := "look around" |};
      {| role := assistant; content := "You see a path." |};
      {| role := user; content := "follow it" |};
      {| role := assistant; content := "It leads to a river." |} ]
  /\ length (messages (fst (run calls (fst (mount o0))))) = 1 + 2 * 2.
Proof.
  intros o0 calls.
  apply (transcript_after_successful_submits o0
           {| generated_text := Some "You wake in a forest.";
              data_session_id := Some "s1"; data_character := None |}
           "You wake in a forest." calls
           [ [ {| role := user; content := "look around" |};
               {| role := assistant; content := "You see a path." |} ];
             [ {| role := user; content := "follow it" |};
               {| role := assistant; content := "It leads to a river." |} ] ]).
  - now constructor.
  - repeat (constructor; [econstructor; [reflexivity | now constructor] |]).
    constructor.
Defined.

(** C2 (P2, optimism under failure).  When a [submit] call passes the
    guard and its request fails, in any of the ways a request can fail, the
    transcript gains the user turn with the submitted text, immediately
    followed by the assistant turn with the fixed apology, and the error
    slot is set. *)
Theorem failed_submit_keeps_user_turn :
  forall s userText o e,
    Js.truthy (Js.trim userText) = true ->
    isLoading s = false ->
    failure o e ->
    let s' := fst (submit userText o s) in
    messages s'
    = (messages s
       ++ [ {| role := user; content := userText |};
            {| role := assistant;
               content := "I apologize, but I encountered an error. Please try again." |} ])%list
    /\ error s' = Some (error_text e "Failed to send message").
Proof.
  intros s userText o e Htext Hidle Hf s'. subst s'.
  rewrite (submit_failure userText o e s Htext Hidle Hf). now split.
Qed.

Lemma failed_submit_keeps_user_turn_witness :
  let s' := fst (submit "hello" Sample.http_500 Sample.scenario_A) in
  messages s'
  = [ {| role := assistant; content := "You wake in a forest." |};
      {| role := user; content := "hello" |};
      {| role := assistant;
         content := "I apologize, but I encountered an error. Please try again." |} ]
  /\ error s' = Some "HTTP error! status: 500".
Proof.
  apply (failed_submit_keeps_user_turn Sample.scenario_A "hello"
           Sample.http_500
           (http_error {| status := 500; json := JsonRejects OtherValue |})).
  - reflexivity.
  - reflexivity.
  - now constructor.
Defined.

(** C3 (P3, session stickiness).  Once the bootstrap response has set the
    session token to [tok], every request of every later [submit] call
    carries [tok] as its [session_id], and the stored token is still [tok]
    afterwards, whatever the responses contain, a [session_id] field
    included. *)
Theorem session_sticky :
  forall o0 tok calls,
    sessionId (fst (mount o0)) = Some tok ->
    sessionId (fst (run calls (fst (mount o0)))) = Some tok
    /\ Forall (fun req => session_id req = Some tok)
         (snd (run calls (fst (mount o0)))).
Proof.
  intros o0 tok calls Htok.
  destruct (run_session calls (fst (mount o0))) as [Hsid Hsent].
  rewrite Htok in Hsid, Hsent. now split.
Qed.

Lemma session_sticky_witness :
  let o0 := Sample.reply "You wake in a forest." (Some "abc") None in
  let calls :=
    [ ("look around", Sample.reply "You see a path." (Some "xyz") None);
      ("fight", Sample.http_500);
      ("run", Sample.reply "You escape." (Some "other") (Some Sample.rin)) ] in
  sessionId (fst (run calls (fst (mount o0)))) = Some "abc"
  /\ Forall (fun req => session_id req = Some "abc")
       (snd (run calls (fst (mount o0)))).
Proof.
  intros o0 calls.
  apply (session_sticky o0 "abc" calls). reflexivity.
Defined.

(** C4, as the code has it.  The busy flag is [false] in the state the
    component mounts with; the bootstrap call, which the mount effect makes,
    sets it.  From that call until the bootstrap request settles the flag
    stays [true] whatever the user types or sends: both controls are
    disabled, no request is started and no other store changes, so no
    [submit] request can run alongside the bootstrap request.  Settling
    clears the flag. *)
Theorem busy_while_bootstrap_in_flight :
  forall evs o,
    let s1 := fst (initializeStory_call initial_state) in
    let s2 := fst (ui_run evs s1) in
    isLoading s1 = true
    /\ isLoading s2 = true
    /\ input_disabled s2 = true
    /\ send_disabled s2 = true
    /\ snd (ui_run evs s1) = []
    /\ messages s2 = messages s1
    /\ sessionId s2 = sessionId s1
    /\ character s2 = character s1
    /\ isLoading (Handler.exec (initializeStory_settle o) s2) = false.
Proof.
  intros evs o s1 s2.
  assert (Hbusy : isLoading s1 = true) by reflexivity.
  destruct (ui_run_busy evs s1 Hbusy)
    as (Hsent & Hbusy2 & Hmsgs & _ & Hsid & Hchar).
  fold s2 in Hbusy2, Hmsgs, Hsid, Hchar.
  unfold input_disabled, send_disabled. rewrite Hbusy2.
  repeat split; try assumption.
  destruct (accepted_or_failure o) as [(d & text & Ha) | (e & Hf)].
  - now rewrite (initializeStory_settle_accepted o d text s2 Ha).
  - now rewrite (initializeStory_settle_failure o e s2 Hf).
Qed.

(** C4 as stated fails at the mount state: the busy flag starts [false],
    and the text input is enabled. *)
Lemma busy_at_mount_counterexample :
  isLoading initial_state = false /\ input_disabled initial_state = false.
Proof. split; reflexivity. Qed.

(** C5 (P4, busy exclusion; scenario C).  When the busy flag is set, or the
    input is empty after trimming, [handleSubmit] sends no request and
    returns the state it was given: transcript, session, character, error,
    busy flag and input text are all as before. *)
Theorem guarded_submit_is_noop :
  forall o s,
    Js.trim (inputText s) = "" \/ isLoading s = true ->
    handleSubmit o s = (s, []).
Proof.
  intros o s Hguard. unfold handleSubmit.
  now rewrite handleSubmit_call_closed.
Qed.

Lemma guarded_submit_is_noop_witness :
  (Js.trim (inputText (onChange "   " Sample.scenario_A)) = ""
   \/ isLoading (onChange "   " Sample.scenario_A) = true)
  /\ handleSubmit (Sample.reply "unused" None None)
       (onChange "   " Sample.scenario_A)
     = (onChange "   " Sample.scenario_A, []).
Proof.
  split.
  - left. reflexivity.
  - apply (guarded_submit_is_noop (Sample.reply "unused" None None)
             (onChange "   " Sample.scenario_A)).
    left. reflexivity.
Defined.

(** C6, as the code has it.  On a successful bootstrap the one request sent
    carries the fixed prompt and a null [session_id]; the transcript becomes
    the single assistant turn with the returned [generated_text]; the
    session token is set when the response provides a non-empty one and
    stays null otherwise; the character is set when the response provides
    one; the error stays clear and the busy flag ends cleared. *)
Theorem bootstrap_success :
  forall o d text,
    accepted o d text ->
    mount o
    = ({| messages := [ {| role := assistant; content := text |} ];
          inputText := "";
          isLoading := false;
          error := None;
          sessionId := match data_session_id d with
                       | Some (String c rest) => Some (String c rest)
                       | Some EmptyString => None
                       | None => None
                       end;
          character := data_character d |},
       [ {| prompt := "I want to start a new adventure story.";
            session_id := None |} ]).
Proof.
  intros o d text Ha. unfold mount, initializeStory. cbn [initializeStory_call].
  rewrite (initializeStory_settle_accepted o d text _ Ha). cbn.
  destruct (data_session_id d) as [[| c rest] |], (data_character d);
    reflexivity.
Qed.

Lemma bootstrap_success_witness :
  mount (Sample.reply "You wake in a forest." (Some "s1") (Some Sample.rin))
  = ({| messages := [ {| role := assistant;
                         content := "You wake in a forest." |} ];
        inputText := "";
        isLoading := false;
        error := None;
        sessionId := Some "s1";
        character := Some Sample.rin |},
     [ {| prompt := "I want to start a new adventure story.";
          session_id := None |} ]).
Proof.
  apply (bootstrap_success
           (Sample.reply "You wake in a forest." (Some "s1") (Some Sample.rin))
           {| generated_text := Some "You wake in a forest.";
              data_session_id := Some "s1";
              data_character := Some Sample.rin |}
           "You wake in a forest.").
  now constructor.
Defined.

(** C6 as stated fails when the session the response provides is the empty
    string: the bootstrap succeeds, yet the session token stays null. *)
Lemma bootstrap_empty_session_counterexample :
  accepted Sample.empty_session_reply Sample.empty_session_data
    "You wake in a forest."
  /\ data_session_id Sample.empty_session_data = Some ""
  /\ sessionId (fst (mount Sample.empty_session_reply)) = None.
Proof. split; [now constructor | split; reflexivity]. Qed.

(** C7.  On a failed bootstrap the error slot holds the message of the
    failure, the transcript is still empty (no apology turn), session and
    character are still null, and the busy flag is cleared. *)
Theorem bootstrap_failure :
  forall o e,
    failure o e ->
    mount o
    = ({| messages := [];
          inputText := "";
          isLoading := false;
          error := Some (error_text e "Failed to start story");
          sessionId := None;
          character := None |},
       [ {| prompt := "I want to start a new adventure story.";
            session_id := None |} ]).
Proof.
  intros o e Hf. unfold mount, initializeStory. cbn [initializeStory_call].
  now rewrite (initializeStory_settle_failure o e _ Hf).
Qed.

Lemma bootstrap_failure_witness :
  mount Sample.http_500
  = ({| messages := [];
        inputText := "";
        isLoading := false;
        error := Some "HTTP error! status: 500";
        sessionId := None;
        character := None |},
     [ {| prompt := "I want to start a new adventure story.";
          session_id := None |} ]).
Proof.
  apply (bootstrap_failure Sample.http_500
           (http_error {| status := 500; json := JsonRejects OtherValue |})).
  now constructor.
Defined.

(** C8 (P5, character replacement).  Whenever a response is applied - a
    successful one, 2xx with a non-empty [generated_text] - and contains a
    character object, the stored character becomes that object, whatever
    was stored before: nothing of the previous snapshot is kept and no
    field is merged, so a response whose goals list is empty leaves the
    stored goals empty.  This holds for the bootstrap and for [submit]. *)
Theorem character_replaced :
  forall s userText o d text c,
    Js.truthy (Js.trim userText) = true ->
    isLoading s = false ->
    accepted o d text ->
    data_character d = Some c ->
    character (fst (submit userText o s)) = Some c
    /\ character (fst (initializeStory o s)) = Some c.
Proof.
  intros s userText o d text c Htext Hidle Ha Hc. split.
  - rewrite (submit_accepted userText o d text s Htext Hidle Ha). cbn.
    now rewrite Hc.
  - unfold initializeStory. cbn [initializeStory_call fst].
    rewrite (initializeStory_settle_accepted o d text _ Ha). cbn.
    now rewrite Hc.
Qed.

Lemma character_replaced_witness :
  character Sample.bob_state = Some (Sample.bob ["find sword"])
  /\ character
       (fst (submit "drop the quest"
               (Sample.reply "Done." None (Some (Sample.bob [])))
               Sample.bob_state))
     = Some (Sample.bob [])
  /\ character
       (fst (initializeStory
               (Sample.reply "Done." None (Some (Sample.bob [])))
               Sample.bob_state))
     = Some (Sample.bob []).
Proof.
  split; [reflexivity |].
  apply (character_replaced Sample.bob_state "drop the quest"
           (Sample.reply "Done." None (Some (Sample.bob [])))
           {| generated_text := Some "Done."; data_session_id := None;
              data_character := Some (Sample.bob []) |}
           "Done." (Sample.bob [])).
  - reflexivity.
  - reflexivity.
  - now constructor.
  - reflexivity.
Defined.

(** C9.  The error recorded by a failed [submit] is
    ["HTTP error! status: {code}"] for a non-2xx response,
    ["No generated text in response"] for a 2xx response without
    [generated_text], and for a network failure the message of the caught
    exception, or the fallback ["Failed to send message"] when what was
    caught is not an [Error]. *)
Theorem failure_messages :
  forall s userText,
    Js.truthy (Js.trim userText) = true ->
    isLoading s = false ->
    (forall r,
        (status r < 200 \/ 299 < status r)%N ->
        error (fst (submit userText (FetchResolves r) s))
        = Some ("HTTP error! status: " ++ Js.number_to_string (status r)))
    /\ (forall r d,
           (200 <= status r <= 299)%N ->
           json r = JsonResolves d ->
           generated_text d = None ->
           error (fst (submit userText (FetchResolves r) s))
           = Some "No generated text in response")
    /\ (forall m,
           error (fst (submit userText (FetchRejects (ErrorObject m)) s))
           = Some m)
    /\ error (fst (submit userText (FetchRejects OtherValue) s))
       = Some "Failed to send message".
Proof.
  intros s userText Htext Hidle. repeat split.
  - intros r Hstatus.
    assert (Hok : ok r = false).
    { unfold ok. destruct Hstatus as [Hlow | Hhigh].
      - apply andb_false_intro1. now apply N.leb_gt.
      - apply andb_false_intro2. now apply N.leb_gt. }
    now rewrite (submit_failure userText _ _ s Htext Hidle (http_failure r Hok)).
  - intros r d [Hlow Hhigh] Hjson Hgen.
    assert (Hok : ok r = true).
    { unfold ok. apply andb_true_intro. split; now apply N.leb_le. }
    assert (Hf : failure (FetchResolves r) no_generated_text).
    { apply missing_text with d; [assumption | assumption |].
      now rewrite Hgen. }
    now rewrite (submit_failure userText _ _ s Htext Hidle Hf).
  - intros m.
    now rewrite (submit_failure userText _ _ s Htext Hidle
                   (network_failure (ErrorObject m))).
  - now rewrite (submit_failure userText _ _ s Htext Hidle
                   (network_failure OtherValue)).
Qed.

Lemma failure_messages_witness :
  error (fst (submit "fight"
                (FetchResolves {| status := 500; json := JsonRejects OtherValue |})
                Sample.scenario_A))
  = Some "HTTP error! status: 500"
  /\ error (fst (submit "fight"
                   (Sample.character_only Sample.rin) Sample.scenario_A))
     = Some "No generated text in response"
  /\ error (fst (submit "fight"
                   (FetchRejects (ErrorObject "Failed to fetch"))
                   Sample.scenario_A))
     = Some "Failed to fetch"
  /\ error (fst (submit "fight" (FetchRejects OtherValue) Sample.scenario_A))
     = Some "Failed to send message".
Proof.
  destruct (failure_messages Sample.scenario_A "fight" eq_refl eq_refl)
    as (Hhttp & Hmissing & Hmessage & Hfallback).
  split; [| split; [| split]].
  - apply (Hhttp {| status := 500; json := JsonRejects OtherValue |}).
    right. reflexivity.
  - apply (Hmissing
             {| status := 200;
                json := JsonResolves
                          {| generated_text := None; data_session_id := None;
                             data_character := Some Sample.rin |} |}
             {| generated_text := None; data_session_id := None;
                data_character := Some Sample.rin |}).
    + split; discriminate.
    + reflexivity.
    + reflexivity.
  - apply (Hmessage "Failed to fetch").
  - exact Hfallback.
Defined.

(** C10.  A [submit] whose request fails, in any way, leaves the stored
    character as it was; in particular a 2xx response without
    [generated_text] that does contain a character object does not change
    it. *)
Theorem failed_submit_keeps_character :
  forall s userText o e,
    failure o e ->
    character (fst (submit userText o s)) = character s.
Proof.
  intros s userText o e Hf.
  destruct (guard_cases userText s) as [[Htext Hidle] | Hclosed].
  - now rewrite (submit_failure userText o e s Htext Hidle Hf).
  - now rewrite (submit_closed userText o s Hclosed).
Qed.

Lemma failed_submit_keeps_character_witness :
  character
    (fst (submit "drop the quest" (Sample.character_only (Sample.bob []))
            Sample.bob_state))
  = character Sample.bob_state.
Proof.
  apply (failed_submit_keeps_character Sample.bob_state "drop the quest"
           (Sample.character_only (Sample.bob [])) no_generated_text).
  apply missing_text
    with {| generated_text := None; data_session_id := None;
            data_character := Some (Sample.bob []) |};
    reflexivity.
Defined.

(* ================================================================== *)
(** ** Further properties: what [trim] decides for the guard *)

Lemma strip_prefix_app (p l rest : list ascii) :
  Js.strip_prefix p l = Some rest -> l = (p ++ rest)%list.
Proof.
  revert l. induction p as [| a p IH]; intros l H.
  - cbn in H. now injection H as <-.
  - destruct l as [| b l]; [discriminate |]. cbn in H.
    destruct (Ascii.eqb a b) eqn:Hab; [| discriminate].
    apply Ascii.eqb_eq in Hab. subst b.
    cbn. f_equal. now apply IH.
Qed.

Lemma strip_one_app (table : list (list ascii)) (l rest : list ascii) :
  Js.strip_one table l = Some rest ->
  exists p, In p table /\ l = (p ++ rest)%list.
Proof.
  induction table as [| p table IH]; [discriminate |]. cbn.
  destruct (Js.strip_prefix p l) as [rest' |] eqn:Hp.
  - intros H. injection H as <-. exists p. split; [now left |].
    now apply strip_prefix_app.
  - intros H. destruct (IH H) as (q & Hq & Hl).
    exists q. split; [now right | exact Hl].
Qed.

(** A byte that occurs in no sequence of the table survives stripping. *)
Lemma strip_keeps (table : list (list ascii)) (b : ascii) :
  (forall p, In p table -> ~ In b p) ->
  forall fuel l, In b l -> In b (Js.strip fuel table l).
Proof.
  intros Hsolid. induction fuel as [| fuel IH]; intros l Hb; [exact Hb |].
  cbn. destruct (Js.strip_one table l) as [rest |] eqn:Hone; [| exact Hb].
  apply IH. destruct (strip_one_app table l rest Hone) as (p & Hp & ->).
  apply in_app_or in Hb. destruct Hb as [Hb | Hb]; [| exact Hb].
  now destruct (Hsolid p Hp).
Qed.

(** No white-space sequence contains a visible ASCII character. *)
Lemma visible_not_white_space (b : ascii) :
  visible_ascii b = true ->
  forall p, In p Js.white_space -> ~ In b p.
Proof.
  intros Hvis.
  assert (Hall : forallb (fun p => negb (existsb (Ascii.eqb b) p))
                   Js.white_space = true).
  { revert Hvis.
    destruct b as [[] [] [] [] [] [] [] []]; vm_compute; congruence. }
  intros p Hp Hb.
  rewrite forallb_forall in Hall. specialize (Hall p Hp).
  apply negb_true_iff in Hall.
  assert (Hex : existsb (Ascii.eqb b) p = true).
  { apply existsb_exists. exists b. split; [exact Hb | apply Ascii.eqb_refl]. }
  congruence.
Qed.

Lemma trim_keeps_visible (b : ascii) (s : string) :
  visible_ascii b = true ->
  In b (list_ascii_of_string s) ->
  In b (list_ascii_of_string (Js.trim s)).
Proof.
  intros Hvis Hb. unfold Js.trim.
  rewrite list_ascii_of_string_of_list_ascii.
  unfold Js.trimEnd, Js.trimStart.
  rewrite <- in_rev. apply strip_keeps.
  - intros p Hp Hbp. apply in_map_iff in Hp.
    destruct Hp as (q & <- & Hq). rewrite <- in_rev in Hbp.
    exact (visible_not_white_space b Hvis q Hq Hbp).
  - rewrite <- in_rev. apply strip_keeps; [| exact Hb].
    exact (visible_not_white_space b Hvis).
Qed.

(** Text with a visible ASCII character is not blank. *)
Lemma trim_visible_truthy (b : ascii) (s : string) :
  visible_ascii b = true ->
  In b (list_ascii_of_string s) ->
  Js.truthy (Js.trim s) = true.
Proof.
  intros Hvis Hb.
  pose proof (trim_keeps_visible b s Hvis Hb) as Hin.
  now destruct (Js.trim s).
Qed.

Lemma strip_ascii_white_space (l : list ascii) :
  Forall (fun b => In b ascii_white_space) l ->
  forall fuel, length l <= fuel -> Js.strip fuel Js.white_space l = [].
Proof.
  induction 1 as [| b l Hb _ IH]; intros fuel Hfuel.
  - now destruct fuel.
  - destruct fuel as [| fuel]; [cbn in Hfuel; lia |].
    cbn in Hfuel. assert (Hlen : length l <= fuel) by lia.
    specialize (IH fuel Hlen).
    cbn in Hb.
    destruct Hb as [<- | [<- | [<- | [<- | [<- | [<- | []]]]]]];
      exact IH.
Qed.

(** Text made of one-byte white space only is blank. *)
Lemma trim_ascii_white_space (s : string) :
  Forall (fun b => In b ascii_white_space) (list_ascii_of_string s) ->
  Js.trim s = "".
Proof.
  intros Hws. unfold Js.trim, Js.trimStart.
  now rewrite (strip_ascii_white_space _ Hws _ (le_n _)).
Qed.

(** [length l] rounds leave no white space in front: the fuel given to
    [strip] by [trimStart] is enough. *)
Lemma trimStart_done (l : list ascii) :
  Js.strip_one Js.white_space (Js.trimStart l) = None.
Proof.
  unfold Js.trimStart.
  assert (Hgen : forall fuel l', length l' <= fuel ->
             Js.strip_one Js.white_space (Js.strip fuel Js.white_space l')
             = None).
  { induction fuel as [| fuel IH]; intros l' Hlen.
    - destruct l'; [reflexivity | cbn in Hlen; lia].
    - cbn [Js.strip].
      destruct (Js.strip_one Js.white_space l') as [rest |] eqn:Hone;
        [| exact Hone].
      apply IH.
      destruct (strip_one_app _ _ _ Hone) as (p & Hp & ->).
      rewrite length_app in Hlen.
      assert (Hpos : 1 <= length p).
      { revert Hp. clear. intros Hp.
        assert (Hall : forallb (fun q => 1 <=? length q)%nat Js.white_space
                       = true) by reflexivity.
        rewrite forallb_forall in Hall.
        now apply Nat.leb_le, Hall. }
      lia. }
  now apply Hgen.
Qed.

(* ================================================================== *)
(** ** Further properties: one [submit] call, whatever its outcome *)

Lemma guard_open_iff (s : State) :
  send_disabled s = false
  <-> Js.truthy (Js.trim (inputText s)) = true /\ isLoading s = false.
Proof.
  unfold send_disabled. split.
  - intros H. apply orb_false_elim in H. destruct H as [Hidle Htext].
    apply negb_false_iff in Htext. now split.
  - intros [Htext Hidle]. now rewrite Htext, Hidle.
Qed.

(** X1.  The Send button is disabled in exactly the states in which
    [handleSubmit] returns at its guard, doing nothing. *)
Theorem send_button_matches_guard :
  forall s o,
    View.send_off (View.render s) = true <-> handleSubmit o s = (s, []).
Proof.
  intros s o. cbn [View.render View.send_off]. split.
  - intros Hoff. unfold handleSubmit.
    rewrite handleSubmit_call_closed; [reflexivity |].
    unfold send_disabled in Hoff. apply orb_true_iff in Hoff.
    destruct Hoff as [Hbusy | Hblank]; [now right | left].
    apply negb_true_iff in Hblank. now destruct (Js.trim (inputText s)).
  - intros Hnoop. destruct (send_disabled s) eqn:Hoff; [reflexivity |].
    apply guard_open_iff in Hoff. destruct Hoff as [Htext Hidle].
    unfold handleSubmit in Hnoop.
    rewrite (handleSubmit_call_open s Htext Hidle) in Hnoop. discriminate.
Qed.

(** X2.  A [submit] that passes the guard sends exactly one request,
    whose prompt is the text exactly as typed (white space around it
    included) with the stored session; whatever the outcome, the transcript
    gains the user turn with that same text and one assistant turn, the
    input box is emptied and the busy flag is cleared. *)
Theorem open_submit_effects :
  forall s userText o,
    Js.truthy (Js.trim userText) = true ->
    isLoading s = false ->
    let s' := fst (submit userText o s) in
    snd (submit userText o s)
    = [ {| prompt := userText; session_id := sessionId s |} ]
    /\ (exists reply,
           messages s'
           = (messages s
              ++ [ {| role := user; content := userText |};
                   {| role := assistant; content := reply |} ])%list)
    /\ inputText s' = ""
    /\ isLoading s' = false.
Proof.
  intros s userText o Htext Hidle s'. subst s'.
  destruct (accepted_or_failure o) as [(d & text & Ha) | (e & Hf)].
  - rewrite (submit_accepted userText o d text s Htext Hidle Ha). cbn.
    repeat split. now exists text.
  - rewrite (submit_failure userText o e s Htext Hidle Hf). cbn.
    repeat split. now exists apology.
Qed.

Lemma open_submit_effects_witness :
  let s' := fst (submit "  go north " Sample.http_500 Sample.scenario_A) in
  snd (submit "  go north " Sample.http_500 Sample.scenario_A)
  = [ {| prompt := "  go north "; session_id := Some "s1" |} ]
  /\ (exists reply,
         messages s'
         = (messages Sample.scenario_A
            ++ [ {| role := user; content := "  go north " |};
                 {| role := assistant; content := reply |} ])%list)
  /\ inputText s' = ""
  /\ isLoading s' = false.
Proof.
  apply (open_submit_effects Sample.scenario_A "  go north " Sample.http_500);
    reflexivity.
Defined.

(** X3.  After a [submit] that passes the guard, the error slot is empty
    exactly when the request succeeded: a success clears an earlier error,
    a failure always leaves one. *)
Theorem error_cleared_iff_accepted :
  forall s userText o,
    Js.truthy (Js.trim userText) = true ->
    isLoading s = false ->
    error (fst (submit userText o s)) = None
    <-> exists d text, accepted o d text.
Proof.
  intros s userText o Htext Hidle. split.
  - intros Herr.
    destruct (accepted_or_failure o) as [Ha | (e & Hf)]; [exact Ha |].
    rewrite (submit_failure userText o e s Htext Hidle Hf) in Herr.
    discriminate.
  - intros (d & text & Ha).
    now rewrite (submit_accepted userText o d text s Htext Hidle Ha).
Qed.

Lemma error_cleared_iff_accepted_witness :
  let failed := fst (submit "fight" Sample.http_500 Sample.scenario_A) in
  error failed = Some "HTTP error! status: 500"
  /\ (error (fst (submit "flee" (Sample.reply "You escape." None None) failed))
      = None
      <-> exists d text,
          accepted (Sample.reply "You escape." None None) d text).
Proof.
  split; [reflexivity |].
  apply (error_cleared_iff_accepted
           (fst (submit "fight" Sample.http_500 Sample.scenario_A))
           "flee" (Sample.reply "You escape." None None));
    reflexivity.
Defined.

(** X4.  A response that is not 2xx is handled without reading its body:
    two responses with the same non-2xx status leave the same state and
    send the same request, whatever their bodies hold, for [submit] and for
    the bootstrap alike. *)
Theorem error_status_ignores_body :
  forall s userText code body1 body2,
    (code < 200 \/ 299 < code)%N ->
    submit userText (FetchResolves {| status := code; json := body1 |}) s
    = submit userText (FetchResolves {| status := code; json := body2 |}) s
    /\ mount (FetchResolves {| status := code; json := body1 |})
       = mount (FetchResolves {| status := code; json := body2 |}).
Proof.
  intros s userText code body1 body2 Hcode.
  assert (Hok : forall body, ok {| status := code; json := body |} = false).
  { intros body. unfold ok. cbn. destruct Hcode as [Hlow | Hhigh].
    - apply andb_false_intro1. now apply N.leb_gt.
    - apply andb_false_intro2. now apply N.leb_gt. }
  split.
  - destruct (guard_cases userText s) as [[Htext Hidle] | Hclosed].
    + rewrite (submit_failure userText _ _ s Htext Hidle
                 (http_failure _ (Hok body1))).
      now rewrite (submit_failure userText _ _ s Htext Hidle
                     (http_failure _ (Hok body2))).
    + now rewrite !(submit_closed userText _ s Hclosed).
  - unfold mount, initializeStory. cbn [initializeStory_call].
    rewrite (initializeStory_settle_failure _ _ _ (http_failure _ (Hok body1))).
    now rewrite (initializeStory_settle_failure _ _ _
                   (http_failure _ (Hok body2))).
Qed.

Lemma error_status_ignores_body_witness :
  submit "fight"
    (FetchResolves {| status := 404; json := JsonRejects OtherValue |})
    Sample.scenario_A
  = submit "fight"
      (FetchResolves
         {| status := 404;
            json := JsonResolves
                      {| generated_text := Some "You win.";
                         data_session_id := Some "s9";
                         data_character := Some Sample.rin |} |})
      Sample.scenario_A
  /\ mount (FetchResolves {| status := 404; json := JsonRejects OtherValue |})
     = mount (FetchResolves
                {| status := 404;
                   json := JsonResolves
                             {| generated_text := Some "You win.";
                                data_session_id := Some "s9";
                                data_character := Some Sample.rin |} |}).
Proof.
  apply (error_status_ignores_body Sample.scenario_A "fight" 404%N).
  right. reflexivity.
Defined.

(** X5.  A 2xx response whose [generated_text] is the empty string is
    handled as a failure: a [submit] records "No generated text in
    response", appends the apology after the user turn and leaves session
    and character alone, although the body may carry both; the bootstrap
    leaves the transcript empty with the same error. *)
Theorem empty_text_is_failure :
  forall s userText r d,
    Js.truthy (Js.trim userText) = true ->
    isLoading s = false ->
    ok r = true ->
    json r = JsonResolves d ->
    generated_text d = Some "" ->
    submit userText (FetchResolves r) s
    = ({| messages := messages s
                      ++ [ {| role := user; content := userText |};
                           {| role := assistant; content := apology |} ];
          inputText := "";
          isLoading := false;
          error := Some "No generated text in response";
          sessionId := sessionId s;
          character := character s |},
       [ {| prompt := userText; session_id := sessionId s |} ])
    /\ fst (mount (FetchResolves r))
       = {| messages := [];
            inputText := "";
            isLoading := false;
            error := Some "No generated text in response";
            sessionId := None;
            character := None |}.
Proof.
  intros s userText r d Htext Hidle Hok Hjson Hgen.
  assert (Hf : failure (FetchResolves r) no_generated_text).
  { apply missing_text with d; [assumption | assumption |].
    now rewrite Hgen. }
  split.
  - now rewrite (submit_failure userText _ _ s Htext Hidle Hf).
  - unfold mount, initializeStory. cbn [initializeStory_call fst].
    now rewrite (initializeStory_settle_failure _ _ _ Hf).
Qed.

Lemma empty_text_is_failure_witness :
  let d := {| generated_text := Some ""; data_session_id := Some "s9";
              data_character := Some Sample.rin |} in
  let r := {| status := 200; json := JsonResolves d |} in
  submit "look" (FetchResolves r) Sample.scenario_A
  = ({| messages := [ {| role := assistant; content := "You wake in a forest." |};
                      {| role := user; content := "look" |};
                      {| role := assistant; content := apology |} ];
        inputText := "";
        isLoading := false;
        error := Some "No generated text in response";
        sessionId := Some "s1";
        character := None |},
     [ {| prompt := "look"; session_id := Some "s1" |} ])
  /\ fst (mount (FetchResolves r))
     = {| messages := [];
          inputText := "";
          isLoading := false;
          error := Some "No generated text in response";
          sessionId := None;
          character := None |}.
Proof.
  intros d r.
  apply (empty_text_is_failure Sample.scenario_A "look" r d); reflexivity.
Defined.

(* ================================================================== *)
(** ** Further properties: any sequence of [submit] calls *)

Lemma paired_app (l1 l2 : list StoryMessage) :
  paired l1 = true -> paired l2 = true -> paired (l1 ++ l2) = true.
Proof.
  revert l1. fix IH 1. intros [| first [| second rest]] H1 H2.
  - exact H2.
  - discriminate.
  - cbn in *. destruct (role first), (role second); try discriminate.
    now apply IH.
Qed.

(** One call adds no turn and sends nothing, or adds a user turn and an
    assistant turn and sends one request. *)
Lemma submit_adds_pair (userText : string) (o : FetchOutcome) (s : State) :
  exists tail,
    messages (fst (submit userText o s)) = (messages s ++ tail)%list
    /\ paired tail = true
    /\ length tail = 2 * length (snd (submit userText o s)).
Proof.
  destruct (guard_cases userText s) as [[Htext Hidle] | Hclosed].
  - destruct (accepted_or_failure o) as [(d & text & Ha) | (e & Hf)].
    + rewrite (submit_accepted userText o d text s Htext Hidle Ha). cbn.
      eexists. split; [reflexivity | now split].
    + rewrite (submit_failure userText o e s Htext Hidle Hf). cbn.
      eexists. split; [reflexivity | now split].
  - rewrite (submit_closed userText o s Hclosed). cbn.
    exists []. now rewrite app_nil_r.
Qed.

Lemma submit_open_sent (userText : string) (o : FetchOutcome) (s : State) :
  Js.truthy (Js.trim userText) = true ->
  isLoading s = false ->
  snd (submit userText o s)
  = [ {| prompt := userText; session_id := sessionId s |} ].
Proof.
  intros Htext Hidle.
  destruct (accepted_or_failure o) as [(d & text & Ha) | (e & Hf)].
  - now rewrite (submit_accepted userText o d text s Htext Hidle Ha).
  - now rewrite (submit_failure userText o e s Htext Hidle Hf).
Qed.

(** X6.  Whatever the texts and the outcomes of a sequence of [submit]
    calls, the transcript only grows at its end, by pairs of a user turn
    followed by an assistant turn, two turns for each request sent. *)
Theorem transcript_grows_by_pairs :
  forall calls s,
    exists tail,
      messages (fst (run calls s)) = (messages s ++ tail)%list
      /\ paired tail = true
      /\ length tail = 2 * length (snd (run calls s)).
Proof.
  induction calls as [| [userText o] rest IH]; intros s.
  - exists []. cbn. now rewrite app_nil_r.
  - rewrite run_cons. cbn [fst snd].
    destruct (submit_adds_pair userText o s) as (tail1 & Hm1 & Hp1 & Hl1).
    destruct (IH (fst (submit userText o s))) as (tail2 & Hm2 & Hp2 & Hl2).
    exists (tail1 ++ tail2)%list. repeat split.
    + now rewrite Hm2, Hm1, app_assoc.
    + now apply paired_app.
    + rewrite !length_app. lia.
Qed.

(** X7.  From an idle state, a sequence of [submit] calls sends one request
    for each text that is not blank, in the order submitted, each with the
    text as typed and the session token of the starting state; blank texts
    send nothing, and the busy flag is clear again at the end. *)
Theorem requests_of_run :
  forall calls s,
    isLoading s = false ->
    snd (run calls s)
    = map (fun call => {| prompt := fst call; session_id := sessionId s |})
        (filter (fun call => Js.truthy (Js.trim (fst call))) calls)
    /\ isLoading (fst (run calls s)) = false.
Proof.
  induction calls as [| [userText o] rest IH]; intros s Hidle.
  - now split.
  - rewrite run_cons. cbn [fst snd filter].
    destruct (IH (fst (submit userText o s)) (submit_idle userText o s Hidle))
      as [Hsent Hidle'].
    destruct (submit_session userText o s) as [Hsid _].
    rewrite Hsid in Hsent. rewrite Hsent. split; [| exact Hidle'].
    destruct (Js.truthy (Js.trim userText)) eqn:Htext.
    + now rewrite (submit_open_sent userText o s Htext Hidle).
    + rewrite submit_closed; [reflexivity |].
      left. now destruct (Js.trim userText).
Qed.

Lemma requests_of_run_witness :
  let calls :=
    [ ("look around", Sample.reply "You see a path." (Some "s2") None);
      ("   ", Sample.reply "unused" None None);
      (" fight", Sample.http_500) ] in
  snd (run calls Sample.scenario_A)
  = [ {| prompt := "look around"; session_id := Some "s1" |};
      {| prompt := " fight"; session_id := Some "s1" |} ]
  /\ isLoading (fst (run calls Sample.scenario_A)) = false.
Proof.
  intros calls.
  apply (requests_of_run calls Sample.scenario_A). reflexivity.
Defined.

(** X8.  When the bootstrap fails, the client never gets a session: every
    request of every later [submit] carries a null [session_id] and the
    stored token stays null, also when later responses carry a
    [session_id]. *)
Theorem no_session_after_failed_bootstrap :
  forall o0 e calls,
    failure o0 e ->
    sessionId (fst (run calls (fst (mount o0)))) = None
    /\ Forall (fun req => session_id req = None)
         (snd (run calls (fst (mount o0)))).
Proof.
  intros o0 e calls Hf.
  assert (Hnone : sessionId (fst (mount o0)) = None).
  { unfold mount, initializeStory. cbn [initializeStory_call fst].
    now rewrite (initializeStory_settle_failure o0 e _ Hf). }
  destruct (run_session calls (fst (mount o0))) as [Hsid Hsent].
  rewrite Hnone in Hsid, Hsent. now split.
Qed.

Lemma no_session_after_failed_bootstrap_witness :
  let calls :=
    [ ("hello", Sample.reply "Hi." (Some "s7") None);
      ("again", Sample.reply "Hi again." (Some "s7") None) ] in
  sessionId (fst (run calls (fst (mount Sample.http_500)))) = None
  /\ Forall (fun req => session_id req = None)
       (snd (run calls (fst (mount Sample.http_500)))).
Proof.
  intros calls.
  apply (no_session_after_failed_bootstrap Sample.http_500
           (http_error {| status := 500; json := JsonRejects OtherValue |})
           calls).
  now constructor.
Defined.

Lemma submit_keeps_some_character (userText : string) (o : FetchOutcome)
  (s : State) (c : Character) :
  character s = Some c ->
  exists c', character (fst (submit userText o s)) = Some c'.
Proof.
  intros Hc.
  destruct (guard_cases userText s) as [[Htext Hidle] | Hclosed].
  - destruct (accepted_or_failure o) as [(d & text & Ha) | (e & Hf)].
    + rewrite (submit_accepted userText o d text s Htext Hidle Ha). cbn.
      destruct (data_character d) as [c' |]; [now exists c' | now exists c].
    + rewrite (submit_failure userText o e s Htext Hidle Hf). cbn.
      now exists c.
  - rewrite (submit_closed userText o s Hclosed). cbn. now exists c.
Qed.

(** X9.  Once a character is stored, no sequence of [submit] calls clears
    it: responses without a character, failures and blank inputs leave a
    character in place. *)
Theorem character_never_cleared :
  forall calls s c,
    character s = Some c ->
    exists c', character (fst (run calls s)) = Some c'.
Proof.
  induction calls as [| [userText o] rest IH]; intros s c Hc.
  - now exists c.
  - rewrite run_cons. cbn [fst].
    destruct (submit_keeps_some_character userText o s c Hc) as [c1 Hc1].
    exact (IH _ c1 Hc1).
Qed.

Lemma character_never_cleared_witness :
  exists c',
    character
      (fst (run [ ("look", Sample.reply "Trees." None None);
                  ("fight", Sample.http_500);
                  ("rest", Sample.character_only Sample.rin) ]
              Sample.bob_state))
    = Some c'.
Proof.
  apply (character_never_cleared
           [ ("look", Sample.reply "Trees." None None);
             ("fight", Sample.http_500);
             ("rest", Sample.character_only Sample.rin) ]
           Sample.bob_state (Sample.bob ["find sword"])).
  reflexivity.
Defined.

(* ================================================================== *)
(** ** Further properties: while a [submit] request is in flight *)

Lemma handleSubmit_settle_setInputText (o : FetchOutcome) (v : string)
  (s : State) :
  Handler.exec (handleSubmit_settle o) (setInputText v s)
  = setInputText v (Handler.exec (handleSubmit_settle o) s).
Proof.
  destruct (accepted_or_failure o) as [(d & text & Ha) | (e & Hf)].
  - now rewrite !(handleSubmit_settle_accepted o d text _ Ha).
  - now rewrite !(handleSubmit_settle_failure o e _ Hf).
Qed.

(** While the busy flag is set, the user's events change the typed text
    only. *)
Lemma ui_run_busy_state evs :
  forall s, isLoading s = true ->
    fst (ui_run evs s) = setInputText (inputText (fst (ui_run evs s))) s.
Proof.
  induction evs as [| e rest IH]; intros s Hbusy.
  - cbn. now destruct s.
  - cbn [ui_run]. destruct e as [v |]; cbn [ui_step].
    + specialize (IH (onChange v s) Hbusy).
      destruct (ui_run rest (onChange v s)) as [s2 sent2]. cbn [fst] in *.
      rewrite IH at 1. reflexivity.
    + rewrite handleSubmit_call_closed by now right.
      specialize (IH s Hbusy).
      destruct (ui_run rest s) as [s2 sent2]. exact IH.
Qed.

(** X10.  From the moment [handleSubmit] has sent its request until that
    request settles, nothing the user types or sends starts a second
    request; the page shows "Thinking..." with both controls disabled; and
    the request settles as it would have without those events, except that
    text typed meanwhile stays in the input box. *)
Theorem one_request_in_flight :
  forall s s1 req evs o,
    handleSubmit_call s = Some (s1, req) ->
    let s2 := fst (ui_run evs s1) in
    snd (ui_run evs s1) = []
    /\ View.thinking (View.render s2) = true
    /\ View.input_off (View.render s2) = true
    /\ View.send_off (View.render s2) = true
    /\ Handler.exec (handleSubmit_settle o) s2
       = setInputText (inputText s2) (Handler.exec (handleSubmit_settle o) s1).
Proof.
  intros s s1 req evs o Hcall s2.
  assert (Hbusy : isLoading s1 = true).
  { unfold handleSubmit_call in Hcall.
    destruct (negb (Js.truthy (Js.trim (inputText s))) || isLoading s);
      [discriminate |].
    now injection Hcall as <- _. }
  destruct (ui_run_busy evs s1 Hbusy) as (Hsent & Hbusy2 & _).
  fold s2 in Hbusy2.
  cbn [View.render View.thinking View.input_off View.send_off].
  unfold input_disabled, send_disabled. rewrite Hbusy2.
  repeat split; try assumption.
  subst s2. rewrite (ui_run_busy_state evs s1 Hbusy) at 1.
  apply handleSubmit_settle_setInputText.
Qed.

Lemma one_request_in_flight_witness :
  let s := onChange "look around" Sample.scenario_A in
  let s1 := {| messages := [ {| role := assistant;
                                content := "You wake in a forest." |};
                             {| role := user; content := "look around" |} ];
               inputText := ""; isLoading := true; error := None;
               sessionId := Some "s1"; character := None |} in
  let evs := [ Sent; Typed "and run"; Sent ] in
  let o := Sample.reply "You see a path." None None in
  let s2 := fst (ui_run evs s1) in
  snd (ui_run evs s1) = []
  /\ View.thinking (View.render s2) = true
  /\ View.input_off (View.render s2) = true
  /\ View.send_off (View.render s2) = true
  /\ Handler.exec (handleSubmit_settle o) s2
     = setInputText (inputText s2) (Handler.exec (handleSubmit_settle o) s1).
Proof.
  intros s s1 evs o.
  apply (one_request_in_flight s s1
           {| prompt := "look around"; session_id := Some "s1" |} evs o).
  reflexivity.
Defined.

(* ================================================================== *)
(** ** Further properties: the rendered page *)

(** X11.  After a failed [submit] the error banner is shown, with one
    exception: when what was caught is an [Error] whose message is empty,
    the error slot holds the empty string and no banner is rendered (the
    apology turn is then the only sign of the failure). *)
Theorem banner_after_failed_submit :
  forall s userText o e,
    Js.truthy (Js.trim userText) = true ->
    isLoading s = false ->
    failure o e ->
    let page := View.render (fst (submit userText o s)) in
    (View.banner page = None <-> e = ErrorObject "")
    /\ (e <> ErrorObject "" ->
        View.banner page
        = Some ("Error: " ++ error_text e "Failed to send message"))
    /\ last (View.bubbles page) (View.bubble {| role := user; content := "" |})
       = View.bubble {| role := assistant; content := apology |}.
Proof.
  intros s userText o e Htext Hidle Hf page. subst page.
  rewrite (submit_failure userText o e s Htext Hidle Hf).
  cbn [fst View.render View.banner View.bubbles error messages].
  repeat split.
  - destruct e as [[| a m] |]; cbn; [reflexivity | discriminate | discriminate].
  - intros ->. reflexivity.
  - intros Hne. destruct e as [[| a m] |]; cbn; [congruence | reflexivity ..].
  - rewrite map_app. cbn [map].
    match goal with
    | |- last (?l ++ [?a; ?b])%list _ = _ =>
        change (l ++ [a; b])%list with (l ++ ([a] ++ [b]))%list
    end.
    rewrite app_assoc. apply last_last.
Qed.

Lemma banner_after_failed_submit_witness :
  let page :=
    View.render
      (fst (submit "fight" (FetchRejects (ErrorObject "")) Sample.scenario_A)) in
  (View.banner page = None <-> ErrorObject "" = ErrorObject "")
  /\ (ErrorObject "" <> ErrorObject "" ->
      View.banner page
      = Some ("Error: " ++ error_text (ErrorObject "") "Failed to send message"))
  /\ last (View.bubbles page) (View.bubble {| role := user; content := "" |})
     = View.bubble {| role := assistant; content := apology |}.
Proof.
  apply (banner_after_failed_submit Sample.scenario_A "fight"
           (FetchRejects (ErrorObject "")) (ErrorObject "")).
  - reflexivity.
  - reflexivity.
  - constructor.
Defined.

(** X13.  The page does not show a character's relationships, story
    progress or completed quests: replacing the stored character by one
    that differs in those three fields only renders the same page. *)
Theorem page_ignores_unrendered_fields :
  forall s c rel progress done,
    character s = Some c ->
    View.render
      (setCharacter
         (Some {| name := name c; class := class c; goals := goals c;
                  inventory := inventory c; relationships := rel;
                  story_progress := progress;
                  current_location := current_location c;
                  active_quests := active_quests c;
                  completed_quests := done |}) s)
    = View.render s.
Proof.
  intros s c rel progress done Hc.
  unfold View.render. cbn. now rewrite Hc.
Qed.

Lemma page_ignores_unrendered_fields_witness :
  View.render
    (setCharacter
       (Some {| name := Some "Bob"; class := None; goals := ["find sword"];
                inventory := []; relationships := [("Rin", "friend")];
                story_progress := Sample.one;
                current_location := None;
                active_quests := [];
                completed_quests := ["leave home"] |}) Sample.bob_state)
  = View.render Sample.bob_state.
Proof.
  apply (page_ignores_unrendered_fields Sample.bob_state
           (Sample.bob ["find sword"]) [("Rin", "friend")] Sample.one
           ["leave home"]).
  reflexivity.
Defined.

(* ================================================================== *)
(** ** Further properties: which inputs the guard lets through *)

(** X14.  A text made only of tabs and spaces (or the other one-byte
    white space a text input can hold, VT and FF), of any length, is never
    sent: the Send button is disabled for it, and [submit] stores the typed
    text and does nothing else, whatever the state. *)
Theorem white_space_input_is_ignored :
  forall s userText o,
    Forall (fun b => In b input_white_space) (list_ascii_of_string userText) ->
    submit userText o s = (onChange userText s, [])
    /\ View.send_off (View.render (onChange userText s)) = true.
Proof.
  intros s userText o Hinput.
  assert (Hws : Forall (fun b => In b ascii_white_space)
                  (list_ascii_of_string userText)).
  { apply (Forall_impl _ (P := fun b => In b input_white_space));
      [| exact Hinput].
    intros b Hb. cbn in Hb |- *. tauto. }
  pose proof (trim_ascii_white_space userText Hws) as Hblank.
  split.
  - apply submit_closed. now left.
  - cbn [View.render View.send_off]. unfold send_disabled, onChange.
    cbn [setInputText inputText]. rewrite Hblank.
    apply orb_true_r.
Qed.

Lemma white_space_input_is_ignored_witness :
  submit (String (ascii_of_nat 9) "   ")
    (Sample.reply "unused" None None) Sample.scenario_A
  = (onChange (String (ascii_of_nat 9) "   ") Sample.scenario_A, [])
  /\ View.send_off
       (View.render (onChange (String (ascii_of_nat 9) "   ") Sample.scenario_A))
     = true.
Proof.
  apply (white_space_input_is_ignored Sample.scenario_A
           (String (ascii_of_nat 9) "   ")
           (Sample.reply "unused" None None)).
  repeat constructor; cbn; tauto.
Defined.

(** X15.  In an idle state a text that contains a visible ASCII character
    always passes the guard: the Send button is enabled and [submit] sends
    the text as typed. *)
Theorem visible_input_is_sent :
  forall s userText o b,
    isLoading s = false ->
    visible_ascii b = true ->
    In b (list_ascii_of_string userText) ->
    View.send_off (View.render (onChange userText s)) = false
    /\ snd (submit userText o s)
       = [ {| prompt := userText; session_id := sessionId s |} ].
Proof.
  intros s userText o b Hidle Hvis Hb.
  pose proof (trim_visible_truthy b userText Hvis Hb) as Htext.
  split.
  - cbn [View.render View.send_off]. unfold send_disabled, onChange.
    cbn [setInputText inputText isLoading]. now rewrite Hidle, Htext.
  - now apply submit_open_sent.
Qed.

Lemma visible_input_is_sent_witness :
  View.send_off (View.render (onChange "  x " Sample.scenario_A)) = false
  /\ snd (submit "  x " Sample.http_500 Sample.scenario_A)
     = [ {| prompt := "  x "; session_id := Some "s1" |} ].
Proof.
  apply (visible_input_is_sent Sample.scenario_A "  x " Sample.http_500
           "x"%char).
  - reflexivity.
  - reflexivity.
  - cbn. tauto.
Defined.

(* ================================================================== *)
(** ** Further properties: every user turn is answered *)

Lemma paired_ends_with_assistant (l : list StoryMessage) :
  paired l = true ->
  l <> [] ->
  exists init text,
    l = (init ++ [ {| role := assistant; content := text |} ])%list.
Proof.
  revert l. fix IH 1. intros [| first [| second rest]] Hp Hne.
  - now destruct Hne.
  - discriminate.
  - cbn in Hp. destruct first as [[] c1], second as [[] c2];
      cbn in Hp; try discriminate.
    assert (Hcase : rest = [] \/ rest <> []).
    { destruct rest; [now left | right; discriminate]. }
    destruct Hcase as [-> | Hrest].
    + exists [ {| role := user; content := c1 |} ], c2. reflexivity.
    + destruct (IH rest Hp Hrest) as (init & text & Heq).
      exists ({| role := user; content := c1 |}
              :: {| role := assistant; content := c2 |} :: init), text.
      cbn. now rewrite Heq.
Qed.

Lemma run_appends_pairs calls :
  forall s,
    exists tail,
      messages (fst (run calls s)) = (messages s ++ tail)%list
      /\ paired tail = true.
Proof.
  induction calls as [| [userText o] rest IH]; intros s.
  - exists []. cbn. now rewrite app_nil_r.
  - rewrite run_cons. cbn [fst].
    destruct (submit_adds_pair userText o s) as (tail1 & Hm1 & Hp1 & _).
    destruct (IH (fst (submit userText o s))) as (tail2 & Hm2 & Hp2).
    exists (tail1 ++ tail2)%list. split.
    + now rewrite Hm2, Hm1, app_assoc.
    + now apply paired_app.
Qed.

(** X16.  Whenever the component is at rest - after the bootstrap and any
    number of completed [submit] calls, whatever their texts and outcomes -
    the transcript is empty or ends with an assistant turn: no user turn is
    left without the reply or the apology that follows it. *)
Theorem transcript_ends_with_assistant :
  forall o0 calls,
    let turns := messages (fst (run calls (fst (mount o0)))) in
    turns = []
    \/ exists init text,
        turns = (init ++ [ {| role := assistant; content := text |} ])%list.
Proof.
  intros o0 calls turns. subst turns.
  destruct (run_appends_pairs calls (fst (mount o0))) as (tail & -> & Hp).
  destruct tail as [| first rest].
  - rewrite app_nil_r. unfold mount, initializeStory.
    cbn [initializeStory_call fst].
    destruct (accepted_or_failure o0) as [(d & text & Ha) | (e & Hf)].
    + rewrite (initializeStory_settle_accepted o0 d text _ Ha). cbn.
      right. now exists [], text.
    + rewrite (initializeStory_settle_failure o0 e _ Hf). cbn. now left.
  - right.
    destruct (paired_ends_with_assistant (first :: rest) Hp)
      as (init & text & ->); [discriminate |].
    exists (messages (fst (mount o0)) ++ init)%list, text.
    now rewrite app_assoc.
Qed.
